(** * go-project-init: a shallow embedding of [main.go]

    The program is a straight-line CLI driver.  It reads its flags, checks
    them, resolves a username, builds a path and then calls the operating
    system, the go-git library and the [go] tool one after the other,
    leaving through [os.Exit] at the first error.

    The embedding keeps that shape.  Everything the program does to its
    surroundings goes through a [Platform]: a record with one field per
    library function that [main.go] calls.  The program itself is written in
    a small state-and-exit monad whose state holds the surroundings (the
    world) and a log of every call made and every line printed. *)

From Stdlib Require Import String Ascii List Bool Arith NArith ZArith Lia.
Import ListNotations.
Local Open Scope string_scope.

(** ** Values *)

(** A Go [error], identified with the text its [Error()] method returns
    (this is what the verb [%v] prints). *)
Definition error : Type := string.

(** [config.Scope] of go-git. *)
Inductive Scope : Type := LocalScope | GlobalScope | SystemScope.

(** [config.Config] of go-git, restricted to the field read by
    [getGitUsername]: [cfg.User.Name]. *)
Record Config : Type := { User_Name : string }.

(** The command line as [flag.Parse] leaves it: for every flag, the value
    given on the command line if there was one, and the remaining positional
    arguments ([flag.Args()]).  [arg0] is [os.Args[0]].  A bare [-h] is
    [Some true]; [-h=false] is [Some false].  A command line that
    [flag.Parse] turns down never gets to line 35 and is not described
    here. *)
Record CommandLine : Type := {
  arg0 : string;
  flag_provider : option string;
  flag_gopath : option string;
  flag_username : option string;
  flag_h : option bool;
  positional : list string
}.

(** One flag definition, as [flag.PrintDefaults] sees it. *)
Record FlagDef : Type := {
  fd_name : string;
  fd_default : string;
  fd_usage : string;
  fd_bool : bool
}.

(** [flag.String name dflt usage] and [flag.Bool name dflt usage], read after
    [flag.Parse]: the value from the command line, else the default. *)
Definition flag_String (given : option string) (dflt : string) : string :=
  match given with Some v => v | None => dflt end.

Definition flag_Bool (given : option bool) (dflt : bool) : bool :=
  match given with Some v => v | None => dflt end.

(** [err != nil], and what [%v] prints for [err]. *)
Definition notnil (err : option error) : bool :=
  match err with Some _ => true | None => false end.

Definition verb_v (err : option error) : string :=
  match err with Some text => text | None => "<nil>" end.

(** Characters that a string literal cannot hold directly. *)
Definition nl : string := String (ascii_of_nat 10) EmptyString.
Definition tab : string := String (ascii_of_nat 9) EmptyString.
Definition dquote : string := String (ascii_of_nat 34) EmptyString.

(** ** Events and state *)

(** What the program does that can be seen from outside, each call with its
    arguments and with what it returned. *)
Inductive event : Type :=
| EStdout (text : string)
| EStderr (text : string)
| ELoadConfig (scope : Scope) (r : Config + error)
| EMkdirAll (path : string) (perm : N) (r : option error)
| EChdir (path : string) (r : option error)
| EPlainInit (path : string) (isBare : bool) (r : option error)
| ECombinedOutput (argv : list string) (output : string) (r : option error)
| EWriteFile (name : string) (data : string) (perm : N) (r : option error).

(** The library functions [main.go] calls.  [W] is the state of the
    surroundings: environment variables, the file system, the working
    directory. *)
Record Platform (W : Type) : Type := {
  os_Getenv : string -> W -> string;
  filepath_Join : list string -> string;
  flag_PrintDefaults : list FlagDef -> string;
  config_LoadConfig : Scope -> W -> (Config + error) * W;
  os_MkdirAll : string -> N -> W -> option error * W;
  os_Chdir : string -> W -> option error * W;
  git_PlainInit : string -> bool -> W -> option error * W;
  exec_CombinedOutput : list string -> W -> (string * option error) * W;
  os_WriteFile : string -> string -> N -> W -> option error * W
}.

Arguments os_Getenv {W} _ _ _.
Arguments filepath_Join {W} _ _.
Arguments flag_PrintDefaults {W} _ _.
Arguments config_LoadConfig {W} _ _ _.
Arguments os_MkdirAll {W} _ _ _ _.
Arguments os_Chdir {W} _ _ _.
Arguments git_PlainInit {W} _ _ _ _.
Arguments exec_CombinedOutput {W} _ _ _.
Arguments os_WriteFile {W} _ _ _ _ _.

Record state (W : Type) : Type := {
  world : W;
  trace : list event
}.

Arguments Build_state {W} _ _.
Arguments world {W} _.
Arguments trace {W} _.

(** ** The monad: state, plus leaving through [os.Exit] *)

Inductive outcome (A : Type) : Type :=
| Return (a : A)
| Exit (code : Z).

Arguments Return {A} _.
Arguments Exit {A} _.

Definition M (W A : Type) : Type := state W -> outcome A * state W.

Definition ret {W A : Type} (a : A) : M W A :=
  fun s => (Return a, s).

Definition bind {W A B : Type} (m : M W A) (k : A -> M W B) : M W B :=
  fun s =>
    match m s with
    | (Return a, s') => k a s'
    | (Exit code, s') => (Exit code, s')
    end.

Declare Scope go_scope.
Delimit Scope go_scope with go.

Notation "x <- m ;; k" := (bind m (fun x => k))
  (at level 61, m at next level, right associativity) : go_scope.
Notation "m ;; k" := (bind m (fun _ => k))
  (at level 61, right associativity) : go_scope.

(** [os.Exit(code)]: nothing after it runs. *)
Definition os_Exit {W A : Type} (code : Z) : M W A :=
  fun s => (Exit code, s).

Definition emit {W : Type} (e : event) : M W unit :=
  fun s => (Return tt, {| world := world s; trace := trace s ++ [e] |}).

(** A call that may change the world: run it, log it, hand back its result. *)
Definition call {W R : Type} (f : W -> R * W) (log : R -> event) : M W R :=
  fun s =>
    let (r, w') := f (world s) in
    (Return r, {| world := w'; trace := trace s ++ [log r] |}).

(** A read of the surroundings that leaves no mark. *)
Definition peek {W R : Type} (f : W -> R) : M W R :=
  fun s => (Return (f (world s)), s).

(** [if c { body }] where [body] ends the program or falls through. *)
Definition when {W : Type} (c : bool) (body : M W unit) : M W unit :=
  if c then body else ret tt.

(** Exit status of the process: 0 when [main] returns. *)
Definition exit_status {A : Type} (o : outcome A) : Z :=
  match o with
  | Return _ => 0%Z
  | Exit code => code
  end.

(** ** The program *)

Section Program.

Context {W : Type} (P : Platform W).

Local Open Scope go_scope.

(** [fmt.Println(s)], [fmt.Printf] with its verbs already filled in, and
    [fmt.Fprintf(os.Stderr, ...)]. *)
Definition fmt_Println (s : string) : M W unit := emit (EStdout (s ++ nl)).
Definition fmt_Printf (s : string) : M W unit := emit (EStdout s).
Definition fmt_Fprintf_Stderr (s : string) : M W unit := emit (EStderr s).

(** Lines 119-131. Go returns the pair [(string, error)]. *)
Definition getGitUsername : M W (string * option error) :=
  r <- call (config_LoadConfig P GlobalScope) (ELoadConfig GlobalScope) ;;
  match r with
  | inr err => ret ("", Some ("failed to load git config: " ++ err))
  | inl cfg =>
      let name := User_Name cfg in
      if (name =? "")%string
      then ret ("", Some "git user.name is not set in global config")
      else ret (name, None)
  end.

(** Lines 16-19: the four flags, in the order they are defined. *)
Definition flag_defs (gopath_env : string) : list FlagDef :=
  [ {| fd_name := "provider"; fd_default := "github.com";
       fd_usage := "Git provider (e.g., github.com, gitlab.com)";
       fd_bool := false |};
    {| fd_name := "gopath"; fd_default := gopath_env;
       fd_usage := "GOPATH to use"; fd_bool := false |};
    {| fd_name := "username"; fd_default := "";
       fd_usage := "Git username (defaults to global git config)";
       fd_bool := false |};
    {| fd_name := "h"; fd_default := "false";
       fd_usage := "Display help"; fd_bool := true |} ].

(** Lines 22-31: [flag.Usage]. *)
Definition Usage (prog gopath_env : string) : M W unit :=
  fmt_Fprintf_Stderr ("Go Project Initializer" ++ nl ++ nl) ;;
  fmt_Fprintf_Stderr ("This program creates a new Go project directory structure, initializes a Git repository, sets up a Go module, and generates a basic main.go file." ++ nl) ;;
  fmt_Fprintf_Stderr ("It uses GOPATH and git global config, with options to override defaults." ++ nl ++ nl) ;;
  fmt_Fprintf_Stderr ("Usage: " ++ prog ++ " [options] <project-name>" ++ nl ++ nl) ;;
  fmt_Fprintf_Stderr ("Arguments:" ++ nl) ;;
  fmt_Fprintf_Stderr ("  project-name    Name of the project to create (required)" ++ nl ++ nl) ;;
  fmt_Fprintf_Stderr ("Options:" ++ nl) ;;
  fmt_Fprintf_Stderr (flag_PrintDefaults P (flag_defs gopath_env)).

(** Lines 100-107: the contents of the generated [main.go]. *)
Definition mainContent (projectName : string) : string :=
  "package main" ++ nl ++
  nl ++
  "import " ++ dquote ++ "fmt" ++ dquote ++ nl ++
  nl ++
  "func main() {" ++ nl ++
  tab ++ "fmt.Println(" ++ dquote ++ "Hello from " ++ projectName ++ "!" ++ dquote ++ ")" ++ nl ++
  "}" ++ nl.

(** Line 67. *)
Definition projectPath_of (gopath provider username projectName : string) : string :=
  filepath_Join P [gopath; "src"; provider; username; projectName].

(** Lines 14-117, from the point where [flag.Parse] (line 33) has returned
    with the flags and positional arguments of [cl]. *)
Definition main (cl : CommandLine) : M W unit :=
  gopath_env <- peek (os_Getenv P "GOPATH") ;;
  let provider := flag_String (flag_provider cl) "github.com" in
  let gopath := flag_String (flag_gopath cl) gopath_env in
  let username := flag_String (flag_username cl) "" in
  let help := flag_Bool (flag_h cl) false in
  let flag_Usage := Usage (arg0 cl) gopath_env in
  when help
    (flag_Usage ;;
     os_Exit 0) ;;
  let args := positional cl in
  when (negb (length args =? 1)%nat)
    (fmt_Println "Error: Project name is required as an argument." ;;
     flag_Usage ;;
     os_Exit 1) ;;
  let projectName := hd "" args in
  when (gopath =? "")%string
    (fmt_Println "Error: GOPATH is not set. Please set GOPATH environment variable or provide it using the -gopath flag." ;;
     os_Exit 1) ;;
  username <-
    (if (username =? "")%string
     then
       r <- getGitUsername ;;
       match snd r with
       | Some err =>
           fmt_Printf ("Error getting git username: " ++ err ++ nl) ;;
           os_Exit 1
       | None => ret (fst r)
       end
     else ret username) ;;
  let projectPath := projectPath_of gopath provider username projectName in
  err <- call (os_MkdirAll P projectPath 493) (EMkdirAll projectPath 493) ;;
  when (notnil err)
    (fmt_Printf ("Error creating project directory: " ++ verb_v err ++ nl) ;;
     os_Exit 1) ;;
  err <- call (os_Chdir P projectPath) (EChdir projectPath) ;;
  when (notnil err)
    (fmt_Printf ("Error changing to project directory: " ++ verb_v err ++ nl) ;;
     os_Exit 1) ;;
  err <- call (git_PlainInit P projectPath false) (EPlainInit projectPath false) ;;
  when (notnil err)
    (fmt_Printf ("Error initializing Git repository: " ++ verb_v err ++ nl) ;;
     os_Exit 1) ;;
  r <- call (exec_CombinedOutput P ["go"; "mod"; "init"])
            (fun r => ECombinedOutput ["go"; "mod"; "init"] (fst r) (snd r)) ;;
  when (notnil (snd r))
    (fmt_Printf ("Error initializing Go module: " ++ verb_v (snd r) ++ nl ++ fst r ++ nl) ;;
     os_Exit 1) ;;
  err <- call (os_WriteFile P "main.go" (mainContent projectName) 420)
              (EWriteFile "main.go" (mainContent projectName) 420) ;;
  when (notnil err)
    (fmt_Printf ("Error creating main.go file: " ++ verb_v err ++ nl) ;;
     os_Exit 1) ;;
  fmt_Printf ("Successfully created and set up Go project at " ++ projectPath ++ nl) ;;
  fmt_Println "Created: Git repository, Go module, and main.go file".

(** One run of the program, from an empty log. *)
Definition run (cl : CommandLine) (w : W) : outcome unit * state W :=
  main cl {| world := w; trace := [] |}.

End Program.

(** ** Reading a log *)

(** The five steps of lines 70-113 that change the surroundings. *)
Inductive step : Type :=
| StepMkdirAll
| StepChdir
| StepPlainInit
| StepModInit
| StepWriteFile.


Definition step_of (e : event) : option step :=
  match e with
  | EMkdirAll _ _ _ => Some StepMkdirAll
  | EChdir _ _ => Some StepChdir
  | EPlainInit _ _ _ => Some StepPlainInit
  | ECombinedOutput _ _ _ => Some StepModInit
  | EWriteFile _ _ _ _ => Some StepWriteFile
  | _ => None
  end.

(** The steps of a log, in the order they happened. *)
Fixpoint steps_of (tr : list event) : list step :=
  match tr with
  | [] => []
  | e :: tr' =>
      match step_of e with
      | Some st => st :: steps_of tr'
      | None => steps_of tr'
      end
  end.


(** Printing is the only thing the program does that is neither a
    file-system operation nor a subprocess. *)
Definition is_print (e : event) : bool :=
  match e with
  | EStdout _ | EStderr _ => true
  | _ => false
  end.

(** File-system operations and subprocess calls of a log. *)
Definition operations (tr : list event) : list event :=
  filter (fun e => negb (is_print e)) tr.

(** What went to standard output and to standard error. *)
Fixpoint stdout_of (tr : list event) : string :=
  match tr with
  | [] => ""
  | EStdout text :: tr' => text ++ stdout_of tr'
  | _ :: tr' => stdout_of tr'
  end.

Fixpoint stderr_of (tr : list event) : string :=
  match tr with
  | [] => ""
  | EStderr text :: tr' => text ++ stderr_of tr'
  | _ :: tr' => stderr_of tr'
  end.

(** The directory paths the program handed to the operating system and to
    go-git. *)
Fixpoint paths_used (tr : list event) : list string :=
  match tr with
  | [] => []
  | EMkdirAll path _ _ :: tr' => path :: paths_used tr'
  | EChdir path _ :: tr' => path :: paths_used tr'
  | EPlainInit path _ _ :: tr' => path :: paths_used tr'
  | _ :: tr' => paths_used tr'
  end.

(** [sub] occurs in [s]. *)
Fixpoint contains (sub s : string) : bool :=
  String.prefix sub s ||
  match s with
  | EmptyString => false
  | String _ s' => contains sub s'
  end.


(** The calls of a log that are steps, with their arguments and results. *)
Definition step_events (tr : list event) : list event :=
  filter (fun e => match step_of e with Some _ => true | None => false end) tr.

(** The global git configuration being loaded. *)
Definition is_load (e : event) : bool :=
  match e with
  | ELoadConfig _ _ => true
  | _ => false
  end.

(** The text [flag.Usage] writes (lines 23-30). *)
Definition usage_text {W : Type} (P : Platform W) (prog gopath_env : string) : string :=
  "Go Project Initializer" ++ nl ++ nl ++
  "This program creates a new Go project directory structure, initializes a Git repository, sets up a Go module, and generates a basic main.go file." ++ nl ++
  "It uses GOPATH and git global config, with options to override defaults." ++ nl ++ nl ++
  "Usage: " ++ prog ++ " [options] <project-name>" ++ nl ++ nl ++
  "Arguments:" ++ nl ++
  "  project-name    Name of the project to create (required)" ++ nl ++ nl ++
  "Options:" ++ nl ++
  flag_PrintDefaults P (flag_defs gopath_env).

(** The greeting line of the generated program (line 105). *)
Definition greeting (projectName : string) : string :=
  "fmt.Println(" ++ dquote ++ "Hello from " ++ projectName ++ "!" ++ dquote ++ ")".

(** The arguments [main] gives to each call, whatever the run (lines 70,
    84, 92, 109 and 120): the parts of a call that do not depend on the
    configuration. *)
Definition expected_call (projectName : string) (e : event) : Prop :=
  match e with
  | ELoadConfig scope _ => scope = GlobalScope
  | EMkdirAll _ perm _ => perm = 493%N
  | EPlainInit _ isBare _ => isBare = false
  | ECombinedOutput argv _ _ => argv = ["go"; "mod"; "init"]
  | EWriteFile name data perm _ =>
      name = "main.go" /\ data = mainContent projectName /\ perm = 420%N
  | EChdir _ _ | EStdout _ | EStderr _ => True
  end.

(** ** A platform to run the program on

    An in-memory stand-in for a Unix machine, so that [run] can be
    evaluated on concrete command lines.  Paths are joined and cleaned the
    way Go's [path/filepath] does on Unix; the other calls succeed or fail
    as the world says and record what they did.  The theorems below do not
    depend on it: they hold for every [Platform]. *)

Module Sim.

Definition slash : ascii := "/"%char.
Definition dot : ascii := "."%char.
Definition is_sep (c : ascii) : bool := Ascii.eqb c slash.
Definition is_dot (c : ascii) : bool := Ascii.eqb c dot.

(** [filepath.Clean], Unix.  The output buffer is kept reversed; [dotdot] is
    the length below which [..] may not eat. *)
Fixpoint backtrack (dotdot : nat) (rout : list ascii) : list ascii :=
  match rout with
  | [] => []
  | c :: rest =>
      if (dotdot <? length rest)%nat && negb (is_sep c)
      then backtrack dotdot rest
      else rest
  end.

Fixpoint copy_elem (path rout : list ascii) : list ascii * list ascii :=
  match path with
  | [] => ([], rout)
  | c :: rest => if is_sep c then (path, rout) else copy_elem rest (c :: rout)
  end.

Definition at_end_or_sep (path : list ascii) : bool :=
  match path with
  | [] => true
  | c :: _ => is_sep c
  end.

Fixpoint clean_loop (fuel : nat) (rooted : bool) (path rout : list ascii)
    (dotdot : nat) : list ascii :=
  match fuel with
  | O => rout
  | S fuel' =>
      match path with
      | [] => rout
      | c :: rest =>
          if is_sep c then
            clean_loop fuel' rooted rest rout dotdot
          else if is_dot c && at_end_or_sep rest then
            clean_loop fuel' rooted rest rout dotdot
          else if is_dot c && at_end_or_sep (tl rest)
                  && match rest with d :: _ => is_dot d | [] => false end then
            if (dotdot <? length rout)%nat then
              clean_loop fuel' rooted (tl rest) (backtrack dotdot rout) dotdot
            else if negb rooted then
              let rout1 := if (0 <? length rout)%nat then slash :: rout else rout in
              let rout2 := dot :: dot :: rout1 in
              clean_loop fuel' rooted (tl rest) rout2 (length rout2)
            else
              clean_loop fuel' rooted (tl rest) rout dotdot
          else
            let rout1 :=
              if (rooted && negb (length rout =? 1)%nat)
                 || (negb rooted && negb (length rout =? 0)%nat)
              then slash :: rout else rout in
            let (path', rout2) := copy_elem path rout1 in
            clean_loop fuel' rooted path' rout2 dotdot
      end
  end.

Definition Clean (path : string) : string :=
  match list_ascii_of_string path with
  | [] => "."
  | c :: rest =>
      let rooted := is_sep c in
      let rout :=
        clean_loop (S (String.length path)) rooted
          (if rooted then rest else c :: rest)
          (if rooted then [slash] else [])
          (if rooted then 1 else 0) in
      match rout with
      | [] => "."
      | _ => string_of_list_ascii (rev rout)
      end
  end.

(** [filepath.Join], Unix: from the first non-empty element on, the elements
    joined with a slash, then cleaned. *)
Fixpoint Join (elem : list string) : string :=
  match elem with
  | [] => ""
  | e :: rest =>
      if (e =? "")%string then Join rest else Clean (String.concat "/" elem)
  end.

(** [flag.PrintDefaults]: one entry per flag, sorted by name.  Defaults are
    quoted without escapes. *)
Fixpoint insert_flag (d : FlagDef) (l : list FlagDef) : list FlagDef :=
  match l with
  | [] => [d]
  | d' :: l' =>
      if String.leb (fd_name d) (fd_name d') then d :: l
      else d' :: insert_flag d l'
  end.

Definition sort_flags (l : list FlagDef) : list FlagDef :=
  fold_right insert_flag [] l.

Definition print_default (d : FlagDef) : string :=
  let head := "  -" ++ fd_name d ++ (if fd_bool d then "" else " string") in
  let zero := if fd_bool d then "false" else "" in
  head
  ++ (if (String.length head <=? 4)%nat then tab else nl ++ "    " ++ tab)
  ++ fd_usage d
  ++ (if (fd_default d =? zero)%string then ""
      else if fd_bool d then " (default " ++ fd_default d ++ ")"
      else " (default " ++ dquote ++ fd_default d ++ dquote ++ ")")
  ++ nl.

Definition PrintDefaults (defs : list FlagDef) : string :=
  String.concat "" (map print_default (sort_flags defs)).

(** The world: what the environment and the global git configuration hold,
    which calls are going to fail, and what has been created so far. *)
Record World : Type := {
  env_GOPATH : string;
  gitconfig : Config + error;
  mkdir_error : option error;
  chdir_error : option error;
  init_error : option error;
  gomod_output : string;
  gomod_error : option error;
  write_error : option error;
  cwd : string;
  dirs : list string;
  repos : list (string * bool);
  manifests : list string;
  files : list (string * string)
}.

(** A path as the operating system reads it: from the working directory
    unless it is rooted. *)
Definition resolve (w : World) (path : string) : string :=
  match path with
  | String c _ => if is_sep c then Clean path else Join [cwd w; path]
  | EmptyString => Join [cwd w; path]
  end.

Definition Getenv (name : string) (w : World) : string :=
  if (name =? "GOPATH")%string then env_GOPATH w else "".

Definition LoadConfig (_ : Scope) (w : World) : (Config + error) * World :=
  (gitconfig w, w).

Definition MkdirAll (path : string) (_ : N) (w : World) : option error * World :=
  match mkdir_error w with
  | Some err => (Some err, w)
  | None =>
      (None,
       {| env_GOPATH := env_GOPATH w; gitconfig := gitconfig w;
          mkdir_error := mkdir_error w; chdir_error := chdir_error w;
          init_error := init_error w; gomod_output := gomod_output w;
          gomod_error := gomod_error w; write_error := write_error w;
          cwd := cwd w; dirs := resolve w path :: dirs w;
          repos := repos w; manifests := manifests w; files := files w |})
  end.

Definition Chdir (path : string) (w : World) : option error * World :=
  match chdir_error w with
  | Some err => (Some err, w)
  | None =>
      (None,
       {| env_GOPATH := env_GOPATH w; gitconfig := gitconfig w;
          mkdir_error := mkdir_error w; chdir_error := chdir_error w;
          init_error := init_error w; gomod_output := gomod_output w;
          gomod_error := gomod_error w; write_error := write_error w;
          cwd := resolve w path; dirs := dirs w;
          repos := repos w; manifests := manifests w; files := files w |})
  end.

Definition PlainInit (path : string) (isBare : bool) (w : World) : option error * World :=
  match init_error w with
  | Some err => (Some err, w)
  | None =>
      if existsb (fun r => (fst r =? resolve w path)%string) (repos w)
      then (Some "repository already exists", w)
      else
        (None,
         {| env_GOPATH := env_GOPATH w; gitconfig := gitconfig w;
            mkdir_error := mkdir_error w; chdir_error := chdir_error w;
            init_error := init_error w; gomod_output := gomod_output w;
            gomod_error := gomod_error w; write_error := write_error w;
            cwd := cwd w; dirs := dirs w;
            repos := (resolve w path, isBare) :: repos w;
            manifests := manifests w; files := files w |})
  end.

Definition CombinedOutput (_ : list string) (w : World) : (string * option error) * World :=
  match gomod_error w with
  | Some err => ((gomod_output w, Some err), w)
  | None =>
      ((gomod_output w, None),
       {| env_GOPATH := env_GOPATH w; gitconfig := gitconfig w;
          mkdir_error := mkdir_error w; chdir_error := chdir_error w;
          init_error := init_error w; gomod_output := gomod_output w;
          gomod_error := gomod_error w; write_error := write_error w;
          cwd := cwd w; dirs := dirs w; repos := repos w;
          manifests := cwd w :: manifests w; files := files w |})
  end.

Definition WriteFile (name data : string) (_ : N) (w : World) : option error * World :=
  match write_error w with
  | Some err => (Some err, w)
  | None =>
      (None,
       {| env_GOPATH := env_GOPATH w; gitconfig := gitconfig w;
          mkdir_error := mkdir_error w; chdir_error := chdir_error w;
          init_error := init_error w; gomod_output := gomod_output w;
          gomod_error := gomod_error w; write_error := write_error w;
          cwd := cwd w; dirs := dirs w; repos := repos w;
          manifests := manifests w;
          files := (resolve w name, data) :: files w |})
  end.

Definition platform : Platform World := {|
  os_Getenv := Getenv;
  filepath_Join := Join;
  flag_PrintDefaults := PrintDefaults;
  config_LoadConfig := LoadConfig;
  os_MkdirAll := MkdirAll;
  os_Chdir := Chdir;
  git_PlainInit := PlainInit;
  exec_CombinedOutput := CombinedOutput;
  os_WriteFile := WriteFile
|}.

(** A fresh machine: nothing created yet, the working directory is the
    user's home, and no call fails except as the arguments say. *)
Definition machine (gopath_env : string) (cfg : Config + error)
    (gomod_err : option error) : World := {|
  env_GOPATH := gopath_env;
  gitconfig := cfg;
  mkdir_error := None;
  chdir_error := None;
  init_error := None;
  gomod_output := "go: cannot determine module path for source directory" ++ nl;
  gomod_error := gomod_err;
  write_error := None;
  cwd := "/home/ana";
  dirs := [];
  repos := [];
  manifests := [];
  files := []
|}.

(** Everything works: [GOPATH] is set, git knows the user. *)
Definition healthy : World :=
  machine "/home/ana/go" (inl {| User_Name := "ana" |}) None.

(** [GOPATH] is not set. *)
Definition no_gopath : World :=
  machine "" (inl {| User_Name := "ana" |}) None.

(** The global git configuration cannot be read. *)
Definition no_gitconfig : World :=
  machine "/home/ana/go" (inr "open /home/ana/.gitconfig: permission denied") None.

(** [go mod init] exits with status 1. *)
Definition gomod_fails : World :=
  machine "/home/ana/go" (inl {| User_Name := "ana" |}) (Some "exit status 1").

(** Command lines: [prog args] with the given flags. *)
Definition invoke (gopath username : option string) (h : option bool)
    (args : list string) : CommandLine := {|
  arg0 := "go-project-init";
  flag_provider := None;
  flag_gopath := gopath;
  flag_username := username;
  flag_h := h;
  positional := args
|}.

(** [prog demo] *)
Definition demo : CommandLine := invoke None None None ["demo"].

(** [prog -h] *)
Definition help : CommandLine := invoke None None (Some true) [].

(** [prog -h -gopath "" demo] *)
Definition help_empty_gopath : CommandLine :=
  invoke (Some "") None (Some true) ["demo"].

(** [prog -gopath "" demo] *)
Definition empty_gopath : CommandLine := invoke (Some "") None None ["demo"].

(** [prog -username "" demo] *)
Definition empty_username : CommandLine := invoke None (Some "") None ["demo"].

(** [prog one two] *)
Definition two_args : CommandLine := invoke None None None ["one"; "two"].

(** A machine where the listed calls fail: directory creation, change of
    directory, repository initialisation, file write. *)
Definition failing (mkdir_err chdir_err init_err write_err : option error) : World := {|
  env_GOPATH := "/home/ana/go";
  gitconfig := inl {| User_Name := "ana" |};
  mkdir_error := mkdir_err;
  chdir_error := chdir_err;
  init_error := init_err;
  gomod_output := "go: creating new go.mod: module github.com/ana/demo" ++ nl;
  gomod_error := None;
  write_error := write_err;
  cwd := "/home/ana";
  dirs := [];
  repos := [];
  manifests := [];
  files := []
|}.

(** [prog -username bob demo] *)
Definition as_bob : CommandLine := invoke None (Some "bob") None ["demo"].

(** [prog -gopath rel -username bob demo]: a base path that is not rooted. *)
Definition relative : CommandLine :=
  invoke (Some "rel") (Some "bob") None ["demo"].

End Sim.


(** ** Reading a command line *)

Section Configuration.

Context {W : Type} (P : Platform W).

(** The values of the four flags once [flag.Parse] has run (lines 16-19). *)
Definition provider_of (cl : CommandLine) : string :=
  flag_String (flag_provider cl) "github.com".

Definition gopath_of (cl : CommandLine) (w : W) : string :=
  flag_String (flag_gopath cl) (os_Getenv P "GOPATH" w).

Definition username_flag_of (cl : CommandLine) : string :=
  flag_String (flag_username cl) "".

Definition help_of (cl : CommandLine) : bool :=
  flag_Bool (flag_h cl) false.

(** What [flag.Usage] logs. *)
Definition usage_events (prog gopath_env : string) : list event :=
  [ EStderr ("Go Project Initializer" ++ nl ++ nl);
    EStderr ("This program creates a new Go project directory structure, initializes a Git repository, sets up a Go module, and generates a basic main.go file." ++ nl);
    EStderr ("It uses GOPATH and git global config, with options to override defaults." ++ nl ++ nl);
    EStderr ("Usage: " ++ prog ++ " [options] <project-name>" ++ nl ++ nl);
    EStderr ("Arguments:" ++ nl);
    EStderr ("  project-name    Name of the project to create (required)" ++ nl ++ nl);
    EStderr ("Options:" ++ nl);
    EStderr (flag_PrintDefaults P (flag_defs gopath_env)) ].

(** How lines 57-64 settle the username: the flag if it is not empty, else
    the name in the global git configuration if that loads and has one.
    [username_from cl w user w' log]: from world [w] the username is [user],
    the world is then [w'] and [log] is what was logged on the way. *)
Inductive username_from (cl : CommandLine) (w : W) : string -> W -> list event -> Prop :=
| username_from_flag :
    username_flag_of cl <> "" ->
    username_from cl w (username_flag_of cl) w []
| username_from_config (cfg : Config) (w' : W) :
    username_flag_of cl = "" ->
    config_LoadConfig P GlobalScope w = (inl cfg, w') ->
    User_Name cfg <> "" ->
    username_from cl w (User_Name cfg) w' [ELoadConfig GlobalScope (inl cfg)].

(** A valid configuration: no [-h], exactly one positional argument (the
    project name), a base path that is not empty and a username that
    resolves.  These are the runs that get to line 67. *)
Definition valid_configuration (cl : CommandLine) (w : W)
    (projectName username : string) (w' : W) (log : list event) : Prop :=
  help_of cl = false /\
  positional cl = [projectName] /\
  gopath_of cl w <> "" /\
  username_from cl w username w' log.

(** The global git configuration cannot be loaded, or has no [user.name]. *)
Definition no_identity (w : W) : Prop :=
  match fst (config_LoadConfig P GlobalScope w) with
  | inr _ => True
  | inl cfg => User_Name cfg = ""
  end.

(** The same command line with another [-gopath]. *)
Definition with_gopath (cl : CommandLine) (g : option string) : CommandLine :=
  {| arg0 := arg0 cl;
     flag_provider := flag_provider cl;
     flag_gopath := g;
     flag_username := flag_username cl;
     flag_h := flag_h cl;
     positional := positional cl |}.

(** The same command line with another [-username]. *)
Definition with_username (cl : CommandLine) (u : option string) : CommandLine :=
  {| arg0 := arg0 cl;
     flag_provider := flag_provider cl;
     flag_gopath := flag_gopath cl;
     flag_username := u;
     flag_h := flag_h cl;
     positional := positional cl |}.

End Configuration.

(** * Properties *)

(** Unfolds one run of [main] down to the platform calls. *)
Ltac run_main :=
  unfold run, main, getGitUsername, Usage, fmt_Println, fmt_Printf,
    fmt_Fprintf_Stderr, bind, when, peek, call, emit, os_Exit, ret,
    projectPath_of;
  cbn [world trace fst snd app].

(** Splits on the result of the next platform call that shows in the goal. *)
Ltac split_call :=
  match goal with
  | |- context [config_LoadConfig ?P ?s ?w] =>
      destruct (config_LoadConfig P s w) as [[?cfg | ?err] ?w] eqn:?
  | |- context [os_MkdirAll ?P ?p ?m ?w] =>
      destruct (os_MkdirAll P p m w) as [[?err | ] ?w] eqn:?
  | |- context [os_Chdir ?P ?p ?w] =>
      destruct (os_Chdir P p w) as [[?err | ] ?w] eqn:?
  | |- context [git_PlainInit ?P ?p ?b ?w] =>
      destruct (git_PlainInit P p b w) as [[?err | ] ?w] eqn:?
  | |- context [exec_CombinedOutput ?P ?a ?w] =>
      destruct (exec_CombinedOutput P a w) as [[?out [?err | ]] ?w] eqn:?
  | |- context [os_WriteFile ?P ?n ?d ?m ?w] =>
      destruct (os_WriteFile P n d m w) as [[?err | ] ?w] eqn:?
  end;
  cbn [world trace fst snd app notnil verb_v].

(** Splits on the next check of [main] that shows in the goal. *)
Ltac split_check :=
  match goal with
  | |- context [flag_Bool ?h false] =>
      destruct (flag_Bool h false) eqn:?
  | |- context [Nat.eqb ?n 1] =>
      destruct (Nat.eqb n 1) eqn:?
  | |- context [String.eqb ?a ""] =>
      destruct (String.eqb a "") eqn:?
  end;
  cbn [world trace fst snd app negb].

(** Every way a run can go. *)
Ltac run_cases := run_main; repeat (first [split_check | split_call]).

(** Takes a run with a valid configuration up to line 67. *)
Ltac enter_valid V :=
  let Hh := fresh "Hh" in
  let Ha := fresh "Ha" in
  let Hg := fresh "Hg" in
  let Hu := fresh "Hu" in
  let Hc := fresh "Hc" in
  let Hn := fresh "Hn" in
  destruct V as [Hh [Ha [Hg Hu]]];
  unfold help_of, gopath_of, provider_of in *;
  run_main; rewrite Hh, Ha;
  cbn [negb length Nat.eqb hd];
  apply String.eqb_neq in Hg; rewrite Hg;
  destruct Hu as [Hu | ?cfg ?w Hu Hc Hn];
  unfold username_flag_of in *;
  [ apply String.eqb_neq in Hu; rewrite Hu
  | rewrite Hu; cbn [String.eqb world]; rewrite Hc;
    apply String.eqb_neq in Hn; rewrite Hn ];
  cbn [world trace fst snd app].

Lemma append_assoc (a b c : string) : ((a ++ b) ++ c)%string = (a ++ (b ++ c))%string.
Proof.
  induction a as [|x a IH]; simpl.
  - reflexivity.
  - now rewrite IH.
Qed.

Lemma append_empty_r (a : string) : (a ++ "")%string = a.
Proof.
  induction a as [|x a IH]; simpl; [reflexivity | now rewrite IH].
Qed.

Section Properties.

Context {W : Type} (P : Platform W).

Lemma stderr_of_usage (prog gopath_env : string) :
  stderr_of (usage_events P prog gopath_env) = usage_text P prog gopath_env.
Proof.
  unfold usage_events, usage_text.
  cbn [stderr_of].
  rewrite append_empty_r.
  repeat rewrite append_assoc.
  reflexivity.
Qed.

(** What a run with [-h] is (lines 36-39). *)
Lemma run_help (cl : CommandLine) (w : W) :
  help_of cl = true ->
  run P cl w =
  (Exit 0, {| world := w;
              trace := usage_events P (arg0 cl) (os_Getenv P "GOPATH" w) |}).
Proof.
  unfold help_of. intros H. run_main. rewrite H. reflexivity.
Qed.

(** What a run without [-h] and without exactly one positional argument is
    (lines 42-47). *)
Lemma run_usage_error (cl : CommandLine) (w : W) :
  help_of cl = false ->
  length (positional cl) <> 1 ->
  run P cl w =
  (Exit 1, {| world := w;
              trace := EStdout ("Error: Project name is required as an argument." ++ nl)
                       :: usage_events P (arg0 cl) (os_Getenv P "GOPATH" w) |}).
Proof.
  unfold help_of. intros H Hn. run_main. rewrite H.
  apply Nat.eqb_neq in Hn. rewrite Hn. reflexivity.
Qed.

(** What a run that gets to the base-path check with an empty base path is
    (lines 51-54). *)
Lemma run_no_gopath (cl : CommandLine) (w : W) (projectName : string) :
  help_of cl = false ->
  positional cl = [projectName] ->
  gopath_of P cl w = "" ->
  run P cl w =
  (Exit 1, {| world := w;
              trace := [EStdout ("Error: GOPATH is not set. Please set GOPATH environment variable or provide it using the -gopath flag." ++ nl)] |}).
Proof.
  unfold help_of, gopath_of. intros H Ha Hg. run_main.
  rewrite H, Ha, Hg. reflexivity.
Qed.

(** C5.  With [-h] the program prints the usage message and exits with
    status 0; it makes no file-system call and starts no subprocess, and the
    surroundings are at exit what they were at entry. *)
Theorem help_prints_usage_and_touches_nothing (cl : CommandLine) (w : W) :
  flag_h cl = Some true ->
  exit_status (fst (run P cl w)) = 0%Z /\
  stderr_of (trace (snd (run P cl w)))
    = usage_text P (arg0 cl) (os_Getenv P "GOPATH" w) /\
  operations (trace (snd (run P cl w))) = [] /\
  world (snd (run P cl w)) = w.
Proof.
  intros Hh.
  rewrite run_help by (unfold help_of; now rewrite Hh).
  cbn [fst snd trace world exit_status].
  rewrite stderr_of_usage.
  repeat split; reflexivity.
Qed.

(** C9.  [-h] is looked at before the positional arguments are counted:
    with [-h], whatever the positional arguments are (none, one, several),
    the run prints the usage message to standard error, prints no error
    message, and leaves with status 0, not 1. *)
Theorem help_wins_over_positional_check
    (prog : string) (provider gopath username : option string)
    (args : list string) (w : W) :
  let cl := {| arg0 := prog; flag_provider := provider; flag_gopath := gopath;
               flag_username := username; flag_h := Some true;
               positional := args |} in
  fst (run P cl w) = Exit 0 /\
  exit_status (fst (run P cl w)) <> 1%Z /\
  stderr_of (trace (snd (run P cl w)))
    = usage_text P prog (os_Getenv P "GOPATH" w) /\
  stdout_of (trace (snd (run P cl w))) = "".
Proof.
  intros cl.
  rewrite run_help by reflexivity.
  cbn [fst snd trace exit_status].
  rewrite stderr_of_usage.
  repeat split; try reflexivity.
  discriminate.
Qed.

(** C4, amended.  Without [-h], a run with no positional argument or with
    two or more prints the usage message (after an error line on standard
    output) and exits with status 1, having touched nothing. *)
Theorem wrong_argument_count_is_usage_error (cl : CommandLine) (w : W) :
  help_of cl = false ->
  length (positional cl) <> 1 ->
  fst (run P cl w) = Exit 1 /\
  stderr_of (trace (snd (run P cl w)))
    = usage_text P (arg0 cl) (os_Getenv P "GOPATH" w) /\
  stdout_of (trace (snd (run P cl w)))
    = "Error: Project name is required as an argument." ++ nl /\
  operations (trace (snd (run P cl w))) = [].
Proof.
  intros Hh Hn.
  rewrite run_usage_error by assumption.
  cbn [fst snd trace].
  repeat split; try reflexivity.
  cbn [stderr_of]. apply stderr_of_usage.
Qed.

(** C3, amended.  Without [-h], a run whose base path is empty exits with
    status 1 and makes no file-system call on the way: no directory is
    created, no file written, the working directory is not changed, and the
    surroundings are left as they were.  When the positional argument is
    there, the line printed is the GOPATH error. *)
Theorem empty_gopath_exits_1_untouched (cl : CommandLine) (w : W) :
  help_of cl = false ->
  gopath_of P cl w = "" ->
  exit_status (fst (run P cl w)) = 1%Z /\
  operations (trace (snd (run P cl w))) = [] /\
  world (snd (run P cl w)) = w /\
  (length (positional cl) = 1 ->
   stdout_of (trace (snd (run P cl w)))
     = "Error: GOPATH is not set. Please set GOPATH environment variable or provide it using the -gopath flag." ++ nl).
Proof.
  intros Hh Hg.
  destruct (Nat.eq_dec (length (positional cl)) 1) as [Hn | Hn].
  - destruct (positional cl) as [| name [| ? ?]] eqn:Ha; try discriminate.
    rewrite (run_no_gopath cl w name) by assumption.
    repeat split; reflexivity.
  - rewrite run_usage_error by assumption.
    repeat split; try reflexivity.
    intros; contradiction.
Qed.




(** C1.  For a valid configuration (provider, base path, username, project
    name) the project path is [filepath.Join] of the base path, ["src"], the
    provider, the username and the project name, in that order: the run
    asks for that directory to be created, every path it hands to the
    operating system or to go-git is that one, and a run that completes
    reports that one. *)
Theorem project_path_is_join (cl : CommandLine) (w : W)
    (projectName username : string) (w' : W) (log : list event) :
  valid_configuration P cl w projectName username w' log ->
  let projectPath :=
    filepath_Join P
      [gopath_of P cl w; "src"; provider_of cl; username; projectName] in
  (exists r, In (EMkdirAll projectPath 493 r) (trace (snd (run P cl w)))) /\
  (forall p, In p (paths_used (trace (snd (run P cl w)))) -> p = projectPath) /\
  (fst (run P cl w) = Return tt ->
   In (EStdout ("Successfully created and set up Go project at "
                ++ projectPath ++ nl))
      (trace (snd (run P cl w)))).
Proof.
  intros V projectPath. subst projectPath.
  enter_valid V.
  all: repeat split_call.
  all: cbn [paths_used In].
  all: split;
    [eexists; repeat (first [left; reflexivity | right]) | split].
  all: try (intros p Hp; repeat (destruct Hp as [Hp | Hp]; [now subst | ]);
            contradiction).
  all: intros Hr; try discriminate Hr.
  all: repeat (first [left; reflexivity | right]).
Qed.

(** C2.  When the configuration is valid, the three steps before it succeed
    and [go mod init] fails with the error [err] after writing [output],
    the run exits with status 1 and its last act is to print the error and,
    verbatim, the captured output.  Nothing is undone: the calls made are
    the directory creation, the change of directory, the repository
    initialisation and the subprocess, and the surroundings at exit are
    those the subprocess left, with what the earlier steps created. *)
Theorem module_init_failure_exits_1_without_rollback
    (cl : CommandLine) (w : W) (projectName username : string) (w0 : W)
    (log : list event) (w1 w2 w3 w4 : W) (output : string) (err : error) :
  valid_configuration P cl w projectName username w0 log ->
  let projectPath :=
    filepath_Join P
      [gopath_of P cl w; "src"; provider_of cl; username; projectName] in
  os_MkdirAll P projectPath 493 w0 = (None, w1) ->
  os_Chdir P projectPath w1 = (None, w2) ->
  git_PlainInit P projectPath false w2 = (None, w3) ->
  exec_CombinedOutput P ["go"; "mod"; "init"] w3 = ((output, Some err), w4) ->
  run P cl w =
  (Exit 1,
   {| world := w4;
      trace :=
        (log ++
         [ EMkdirAll projectPath 493 None;
           EChdir projectPath None;
           EPlainInit projectPath false None;
           ECombinedOutput ["go"; "mod"; "init"] output (Some err);
           EStdout ("Error initializing Go module: " ++ err ++ nl
                    ++ output ++ nl) ])%list |}).
Proof.
  intros V projectPath H1 H2 H3 H4. subst projectPath.
  enter_valid V.
  all: rewrite H1; cbn [world trace fst snd app notnil verb_v].
  all: rewrite H2; cbn [world trace fst snd app notnil verb_v].
  all: rewrite H3; cbn [world trace fst snd app notnil verb_v].
  all: rewrite H4; cbn [world trace fst snd app notnil verb_v].
  all: reflexivity.
Qed.

(** A run with project name [demo] that completes has made exactly these
    five calls, each of which succeeded: the directory creation, the change
    into it, [git.PlainInit] with the project path and [isBare] false,
    [go mod init], and the write of [main.go].  The contents written are the
    template with [demo] put in, and hold the greeting
    [fmt.Println("Hello from demo!")].  Where [git.PlainInit] puts the
    repository is the platform's matter: see
    [relative_base_path_puts_repository_below_project_root]. *)
Theorem successful_demo_run_writes_greeting_and_initialises_repository
    (cl : CommandLine) (w : W) :
  positional cl = ["demo"] ->
  fst (run P cl w) = Return tt ->
  exists username output,
    let projectPath :=
      filepath_Join P
        [gopath_of P cl w; "src"; provider_of cl; username; "demo"] in
    step_events (trace (snd (run P cl w))) =
      [ EMkdirAll projectPath 493 None;
        EChdir projectPath None;
        EPlainInit projectPath false None;
        ECombinedOutput ["go"; "mod"; "init"] output None;
        EWriteFile "main.go" (mainContent "demo") 420 None ] /\
    contains (greeting "demo") (mainContent "demo") = true /\
    contains "Hello from demo!" (mainContent "demo") = true.
Proof.
  intros Ha. unfold gopath_of, provider_of.
  run_main. rewrite Ha. cbn [length Nat.eqb negb hd].
  repeat (first [split_check | split_call]).
  all: intros Hr; try discriminate Hr.
  all: eexists; eexists; split; [reflexivity | split; reflexivity].
Qed.

(** C6, amended.  On a run that gets to the username (no [-h], exactly one
    positional argument, a base path that is not empty) without a
    [-username] option, the first thing done is to load the global git
    configuration.  The run stops there, with status 1 and before any step,
    exactly when that configuration cannot be loaded or has no [user.name];
    the line printed says which.  Otherwise the username is the name stored
    there: the next call creates the directory whose path is built from it,
    and no other path is used. *)
Theorem username_comes_from_global_git_config
    (cl : CommandLine) (w : W) (projectName : string) :
  help_of cl = false ->
  positional cl = [projectName] ->
  gopath_of P cl w <> "" ->
  flag_username cl = None ->
  hd_error (trace (snd (run P cl w)))
    = Some (ELoadConfig GlobalScope (fst (config_LoadConfig P GlobalScope w))) /\
  ((fst (run P cl w) = Exit 1 /\ steps_of (trace (snd (run P cl w))) = [])
   <-> no_identity P w) /\
  (forall err,
     fst (config_LoadConfig P GlobalScope w) = inr err ->
     stdout_of (trace (snd (run P cl w)))
       = "Error getting git username: failed to load git config: " ++ err ++ nl) /\
  (forall cfg,
     fst (config_LoadConfig P GlobalScope w) = inl cfg ->
     User_Name cfg = "" ->
     stdout_of (trace (snd (run P cl w)))
       = "Error getting git username: git user.name is not set in global config" ++ nl) /\
  (forall cfg,
     fst (config_LoadConfig P GlobalScope w) = inl cfg ->
     User_Name cfg <> "" ->
     let projectPath :=
       filepath_Join P
         [gopath_of P cl w; "src"; provider_of cl; User_Name cfg; projectName] in
     (exists r, nth_error (trace (snd (run P cl w))) 1
                = Some (EMkdirAll projectPath 493 r)) /\
     (forall p, In p (paths_used (trace (snd (run P cl w)))) -> p = projectPath)).
Proof.
  unfold help_of, gopath_of, provider_of, no_identity.
  intros Hh Ha Hg Hu.
  run_main. rewrite Hh, Ha, Hu.
  cbn [negb length Nat.eqb hd flag_String String.eqb world].
  apply String.eqb_neq in Hg. rewrite Hg.
  cbn [world trace fst snd app].
  destruct (config_LoadConfig P GlobalScope w) as [[cfg | err] w0] eqn:Hc;
    cbn [world trace fst snd app].
  - destruct (String.eqb (User_Name cfg) "") eqn:Hn;
      cbn [world trace fst snd app].
    + apply String.eqb_eq in Hn.
      split; [reflexivity | ].
      split; [split; [intros _; assumption | intros _; split; reflexivity] | ].
      split; [intros e He; discriminate He | ].
      split; [intros cfg' He Hne; cbn [stdout_of];
              rewrite append_empty_r; reflexivity | ].
      intros cfg' He Hne. injection He as <-. contradiction.
    + apply String.eqb_neq in Hn.
      repeat split_call.
      all: cbn [hd_error steps_of step_of stdout_of nth_error paths_used In].
      all: split; [reflexivity | ].
      all: split; [split; [intros [_ Hs]; discriminate Hs | intros He; contradiction] | ].
      all: split; [intros e He; discriminate He | ].
      all: split; [intros cfg' He Hne; injection He as <-; contradiction | ].
      all: intros cfg' He Hne; injection He as <-.
      all: split; [eexists; reflexivity | ].
      all: intros p Hp; repeat (destruct Hp as [Hp | Hp]; [now subst | ]);
           contradiction.
  - split; [reflexivity | ].
    split; [split; [intros _; exact I | intros _; split; reflexivity] | ].
    split; [intros e He; injection He as <-; cbn [stdout_of];
            rewrite append_empty_r, !append_assoc; reflexivity | ].
    split; intros cfg He; discriminate He.
Qed.

(** C10, amended.  On a run that gets to the checks (no [-h], exactly one
    positional argument), an empty string given for a flag counts as no
    value.  With [-gopath ""] the run ends in the empty-base-path error with
    status 1, whatever the environment variable holds.  With [-username ""]
    the run is the one without [-username]: when the base path is not empty
    its first act is to load the global git configuration. *)
Theorem empty_flag_value_counts_as_unset
    (cl : CommandLine) (w : W) (projectName : string) :
  help_of cl = false ->
  positional cl = [projectName] ->
  run P (with_gopath cl (Some "")) w =
    (Exit 1,
     {| world := w;
        trace := [EStdout ("Error: GOPATH is not set. Please set GOPATH environment variable or provide it using the -gopath flag." ++ nl)] |}) /\
  run P (with_username cl (Some "")) w = run P (with_username cl None) w /\
  (gopath_of P cl w <> "" ->
   hd_error (trace (snd (run P (with_username cl (Some "")) w)))
     = Some (ELoadConfig GlobalScope (fst (config_LoadConfig P GlobalScope w)))).
Proof.
  unfold help_of, gopath_of.
  intros Hh Ha.
  split; [ | split].
  - run_main. cbn [with_gopath flag_h positional flag_gopath flag_String].
    rewrite Hh, Ha. reflexivity.
  - reflexivity.
  - intros Hg. run_main.
    cbn [with_username flag_h positional flag_gopath flag_username
         flag_provider flag_String].
    rewrite Hh, Ha.
    cbn [negb length Nat.eqb hd String.eqb world].
    apply String.eqb_neq in Hg. rewrite Hg.
    cbn [world trace fst snd app].
    destruct (config_LoadConfig P GlobalScope w) as [[cfg | err] w0] eqn:Hc;
      cbn [world trace fst snd app].
    + destruct (String.eqb (User_Name cfg) "");
        cbn [world trace fst snd app]; [reflexivity | ].
      repeat split_call; reflexivity.
    + reflexivity.
Qed.

(** X1.  [getGitUsername] always returns (it never leaves the program), makes
    exactly one call, [config.LoadConfig(config.GlobalScope)], and hands back
    either a name that is not empty with a nil error, or the empty name with
    an error.  The error is there exactly when the configuration cannot be
    loaded or has no [user.name]; otherwise the name is the one stored. *)
Theorem getGitUsername_returns_name_or_error (s : state W) :
  exists name err,
    getGitUsername P s =
      (Return (name, err),
       {| world := snd (config_LoadConfig P GlobalScope (world s));
          trace := (trace s ++
                    [ELoadConfig GlobalScope
                       (fst (config_LoadConfig P GlobalScope (world s)))])%list |}) /\
    (err = None <-> name <> "") /\
    (err <> None <-> no_identity P (world s)) /\
    (err = None ->
     exists cfg,
       fst (config_LoadConfig P GlobalScope (world s)) = inl cfg /\
       User_Name cfg = name).
Proof.
  unfold getGitUsername, no_identity, bind, call, ret.
  destruct (config_LoadConfig P GlobalScope (world s)) as [[cfg | e] w'];
    cbn [fst snd world trace].
  - destruct (String.eqb (User_Name cfg) "") eqn:Hn.
    + apply String.eqb_eq in Hn.
      eexists; eexists; split; [reflexivity | ].
      split; [split; [discriminate | intros H; now contradiction H] | ].
      split; [split; [intros _; assumption | discriminate] | discriminate].
    + apply String.eqb_neq in Hn.
      eexists; eexists; split; [reflexivity | ].
      split; [split; [intros _; assumption | reflexivity] | ].
      split; [split; [intros H; now contradiction H | intros H; contradiction] | ].
      intros _. now exists cfg.
  - eexists; eexists; split; [reflexivity | ].
    split; [split; [discriminate | intros H; now contradiction H] | ].
    split; [split; [intros _; exact I | discriminate] | discriminate].
Qed.

(** X2.  When the configuration is valid and [os.MkdirAll] fails, the run
    prints the error and exits with status 1: the working directory is not
    changed, no repository is initialised, no subprocess is started and no
    file is written. *)
Theorem mkdir_failure_stops_the_run
    (cl : CommandLine) (w : W) (projectName username : string) (w0 : W)
    (log : list event) (w1 : W) (err : error) :
  valid_configuration P cl w projectName username w0 log ->
  let projectPath :=
    filepath_Join P
      [gopath_of P cl w; "src"; provider_of cl; username; projectName] in
  os_MkdirAll P projectPath 493 w0 = (Some err, w1) ->
  run P cl w =
  (Exit 1,
   {| world := w1;
      trace :=
        (log ++
         [ EMkdirAll projectPath 493 (Some err);
           EStdout ("Error creating project directory: " ++ err ++ nl) ])%list |}).
Proof.
  intros V projectPath H1. subst projectPath.
  enter_valid V.
  all: rewrite H1; reflexivity.
Qed.

(** X3.  When the directory is created but [os.Chdir] into it fails, the
    run prints the error and exits with status 1, leaving the directory
    behind: no repository is initialised, no subprocess is started and no
    file is written. *)
Theorem chdir_failure_stops_the_run
    (cl : CommandLine) (w : W) (projectName username : string) (w0 : W)
    (log : list event) (w1 w2 : W) (err : error) :
  valid_configuration P cl w projectName username w0 log ->
  let projectPath :=
    filepath_Join P
      [gopath_of P cl w; "src"; provider_of cl; username; projectName] in
  os_MkdirAll P projectPath 493 w0 = (None, w1) ->
  os_Chdir P projectPath w1 = (Some err, w2) ->
  run P cl w =
  (Exit 1,
   {| world := w2;
      trace :=
        (log ++
         [ EMkdirAll projectPath 493 None;
           EChdir projectPath (Some err);
           EStdout ("Error changing to project directory: " ++ err ++ nl) ])%list |}).
Proof.
  intros V projectPath H1 H2. subst projectPath.
  enter_valid V.
  all: rewrite H1; cbn [world trace fst snd app notnil verb_v].
  all: rewrite H2; reflexivity.
Qed.

(** X4.  When [git.PlainInit] fails after the directory was created and
    entered, the run prints the error and exits with status 1: [go mod init]
    is not started and [main.go] is not written. *)
Theorem plain_init_failure_stops_the_run
    (cl : CommandLine) (w : W) (projectName username : string) (w0 : W)
    (log : list event) (w1 w2 w3 : W) (err : error) :
  valid_configuration P cl w projectName username w0 log ->
  let projectPath :=
    filepath_Join P
      [gopath_of P cl w; "src"; provider_of cl; username; projectName] in
  os_MkdirAll P projectPath 493 w0 = (None, w1) ->
  os_Chdir P projectPath w1 = (None, w2) ->
  git_PlainInit P projectPath false w2 = (Some err, w3) ->
  run P cl w =
  (Exit 1,
   {| world := w3;
      trace :=
        (log ++
         [ EMkdirAll projectPath 493 None;
           EChdir projectPath None;
           EPlainInit projectPath false (Some err);
           EStdout ("Error initializing Git repository: " ++ err ++ nl) ])%list |}).
Proof.
  intros V projectPath H1 H2 H3. subst projectPath.
  enter_valid V.
  all: rewrite H1; cbn [world trace fst snd app notnil verb_v].
  all: rewrite H2; cbn [world trace fst snd app notnil verb_v].
  all: rewrite H3; reflexivity.
Qed.

(** X5.  When the four steps before it succeed and [os.WriteFile] fails, the
    run prints the error and exits with status 1 without reporting success;
    what the earlier steps made (directory, repository, module file) is
    left as it is. *)
Theorem write_failure_stops_the_run
    (cl : CommandLine) (w : W) (projectName username : string) (w0 : W)
    (log : list event) (w1 w2 w3 w4 w5 : W) (output : string) (err : error) :
  valid_configuration P cl w projectName username w0 log ->
  let projectPath :=
    filepath_Join P
      [gopath_of P cl w; "src"; provider_of cl; username; projectName] in
  os_MkdirAll P projectPath 493 w0 = (None, w1) ->
  os_Chdir P projectPath w1 = (None, w2) ->
  git_PlainInit P projectPath false w2 = (None, w3) ->
  exec_CombinedOutput P ["go"; "mod"; "init"] w3 = ((output, None), w4) ->
  os_WriteFile P "main.go" (mainContent projectName) 420 w4 = (Some err, w5) ->
  run P cl w =
  (Exit 1,
   {| world := w5;
      trace :=
        (log ++
         [ EMkdirAll projectPath 493 None;
           EChdir projectPath None;
           EPlainInit projectPath false None;
           ECombinedOutput ["go"; "mod"; "init"] output None;
           EWriteFile "main.go" (mainContent projectName) 420 (Some err);
           EStdout ("Error creating main.go file: " ++ err ++ nl) ])%list |}).
Proof.
  intros V projectPath H1 H2 H3 H4 H5. subst projectPath.
  enter_valid V.
  all: rewrite H1; cbn [world trace fst snd app notnil verb_v].
  all: rewrite H2; cbn [world trace fst snd app notnil verb_v].
  all: rewrite H3; cbn [world trace fst snd app notnil verb_v].
  all: rewrite H4; cbn [world trace fst snd app notnil verb_v].
  all: rewrite H5; reflexivity.
Qed.

(** X6.  When the configuration is valid and the five steps succeed, [main]
    returns (status 0).  The run is the five calls in order, then the two
    lines of the success report, the first of which gives the project path;
    the output of [go mod init] is not printed. *)
Theorem all_steps_succeeding_completes_the_run
    (cl : CommandLine) (w : W) (projectName username : string) (w0 : W)
    (log : list event) (w1 w2 w3 w4 w5 : W) (output : string) :
  valid_configuration P cl w projectName username w0 log ->
  let projectPath :=
    filepath_Join P
      [gopath_of P cl w; "src"; provider_of cl; username; projectName] in
  os_MkdirAll P projectPath 493 w0 = (None, w1) ->
  os_Chdir P projectPath w1 = (None, w2) ->
  git_PlainInit P projectPath false w2 = (None, w3) ->
  exec_CombinedOutput P ["go"; "mod"; "init"] w3 = ((output, None), w4) ->
  os_WriteFile P "main.go" (mainContent projectName) 420 w4 = (None, w5) ->
  run P cl w =
  (Return tt,
   {| world := w5;
      trace :=
        (log ++
         [ EMkdirAll projectPath 493 None;
           EChdir projectPath None;
           EPlainInit projectPath false None;
           ECombinedOutput ["go"; "mod"; "init"] output None;
           EWriteFile "main.go" (mainContent projectName) 420 None;
           EStdout ("Successfully created and set up Go project at "
                    ++ projectPath ++ nl);
           EStdout ("Created: Git repository, Go module, and main.go file"
                    ++ nl) ])%list |}).
Proof.
  intros V projectPath H1 H2 H3 H4 H5. subst projectPath.
  enter_valid V.
  all: rewrite H1; cbn [world trace fst snd app notnil verb_v].
  all: rewrite H2; cbn [world trace fst snd app notnil verb_v].
  all: rewrite H3; cbn [world trace fst snd app notnil verb_v].
  all: rewrite H4; cbn [world trace fst snd app notnil verb_v].
  all: rewrite H5; reflexivity.
Qed.

(** X7.  Once [flag.Parse] has returned (line 33), the program ends in one
    of three ways only: [main] returns, or it leaves through [os.Exit(0)],
    or through [os.Exit(1)]; so from there on the exit status is 0 or 1.
    It leaves through [os.Exit(0)] exactly when the parsed [-h] is true, and
    [main] returns only without [-h], with exactly one positional argument
    and a base path that is not empty.  (What [flag.Parse] does with a
    command line it turns down, or with [-help], is the parser's and is not
    part of this statement.) *)
Theorem run_ends_with_status_0_or_1 (cl : CommandLine) (w : W) :
  (fst (run P cl w) = Return tt \/
   fst (run P cl w) = Exit 0 \/
   fst (run P cl w) = Exit 1) /\
  (fst (run P cl w) = Exit 0 <-> help_of cl = true) /\
  (fst (run P cl w) = Return tt ->
   help_of cl = false /\
   length (positional cl) = 1 /\
   gopath_of P cl w <> "").
Proof.
  unfold help_of, gopath_of.
  run_cases.
  all: split; [auto | split; [split; intros H; first [reflexivity | discriminate H] | ]].
  all: intros H; try discriminate H.
  all: repeat split; try reflexivity.
  all: try (apply Nat.eqb_eq; assumption).
  all: apply String.eqb_neq; assumption.
Qed.

(** X8.  Once [flag.Parse] has returned (line 33), what the program writes
    to standard error is the usage message and nothing else: the whole of
    it when the parsed [-h] is true or the number of positional arguments is
    wrong, nothing at all otherwise.  Every error line [main] prints about
    the base path, the username or a failed step goes to standard output.
    (What [flag.Parse] itself writes for a command line it turns down is
    not part of this statement.) *)
Theorem stderr_receives_only_the_usage_message (cl : CommandLine) (w : W) :
  stderr_of (trace (snd (run P cl w))) =
  if help_of cl || negb (length (positional cl) =? 1)%nat
  then usage_text P (arg0 cl) (os_Getenv P "GOPATH" w)
  else "".
Proof.
  unfold help_of.
  run_cases.
  all: cbn [orb negb stderr_of].
  all: first [reflexivity | apply stderr_of_usage].
Qed.

(** X9.  When [-username] is given and not empty, the global git
    configuration is never loaded, whatever else happens in the run. *)
Theorem supplied_username_skips_git_config (cl : CommandLine) (w : W) :
  username_flag_of cl <> "" ->
  forall scope r, ~ In (ELoadConfig scope r) (trace (snd (run P cl w))).
Proof.
  unfold username_flag_of. intros Hu scope r.
  apply String.eqb_neq in Hu.
  run_main. rewrite Hu.
  repeat (first [split_check | split_call]).
  all: cbn [In]; intros Hin.
  all: repeat (destruct Hin as [Hin | Hin]; [discriminate Hin | ]).
  all: exact Hin.
Qed.

(** X10.  The arguments of the calls are the same on every run.  The
    configuration is loaded from the global scope, and at most once; the
    directory is created with mode 0755; the repository is never bare;
    [go mod init] is started without a module path; the file written is
    [main.go], mode 0644, holding the template filled with the first
    positional argument. *)
Theorem calls_have_fixed_arguments (cl : CommandLine) (w : W) :
  Forall (expected_call (hd "" (positional cl))) (trace (snd (run P cl w))) /\
  length (filter is_load (trace (snd (run P cl w)))) <= 1.
Proof.
  split.
  - run_cases.
    all: repeat constructor.
  - run_cases.
    all: cbn [filter is_load length]; auto.
Qed.

(** X12.  A run that exits with status 1 has printed on standard output a
    text that starts with [Error]. *)
Theorem failure_is_announced_on_stdout (cl : CommandLine) (w : W) :
  fst (run P cl w) = Exit 1 ->
  String.prefix "Error" (stdout_of (trace (snd (run P cl w)))) = true.
Proof.
  run_cases.
  all: intros H; try discriminate H.
  all: reflexivity.
Qed.

Lemma prefix_append (s t : string) : String.prefix s (s ++ t) = true.
Proof.
  induction s as [| a s IH]; cbn [String.prefix append].
  - destruct t; reflexivity.
  - destruct (ascii_dec a a) as [_ | Hne]; [exact IH | now contradiction Hne].
Qed.

Lemma contains_here (sub post : string) : contains sub (sub ++ post) = true.
Proof.
  destruct (sub ++ post)%string eqn:E; cbn [contains];
    rewrite <- E, prefix_append; reflexivity.
Qed.

Lemma contains_later (sub pre s : string) :
  contains sub s = true -> contains sub (pre ++ s) = true.
Proof.
  intros H. induction pre as [| a pre IH]; cbn [append].
  - exact H.
  - cbn [contains]. rewrite IH. apply orb_true_r.
Qed.

(** X13.  Whatever the project name, the contents generated for [main.go]
    hold the greeting line with the name put in as it is; nothing in the
    name is escaped or checked. *)
Theorem generated_file_greets_with_project_name (projectName : string) :
  contains (greeting projectName) (mainContent projectName) = true /\
  contains projectName (mainContent projectName) = true.
Proof.
  split.
  - replace (mainContent projectName)
      with (("package main" ++ nl ++ nl ++ "import " ++ dquote ++ "fmt"
             ++ dquote ++ nl ++ nl ++ "func main() {" ++ nl ++ tab)
            ++ (greeting projectName ++ (nl ++ "}" ++ nl)))%string.
    + apply contains_later, contains_here.
    + unfold mainContent, greeting. rewrite !append_assoc. reflexivity.
  - replace (mainContent projectName)
      with (("package main" ++ nl ++ nl ++ "import " ++ dquote ++ "fmt"
             ++ dquote ++ nl ++ nl ++ "func main() {" ++ nl ++ tab
             ++ "fmt.Println(" ++ dquote ++ "Hello from ")
            ++ (projectName ++ ("!" ++ dquote ++ ")" ++ nl ++ "}" ++ nl)))%string.
    + apply contains_later, contains_here.
    + unfold mainContent. rewrite !append_assoc. reflexivity.
Qed.

(** X14.  A step is attempted exactly when the configuration is valid: a
    run creates, enters, initialises, starts or writes something only if
    [-h] is not set, there is exactly one positional argument, the base path
    is not empty and a username resolves; and every such run does attempt
    the first step. *)
Theorem steps_happen_exactly_on_valid_configurations (cl : CommandLine) (w : W) :
  steps_of (trace (snd (run P cl w))) <> [] <->
  exists projectName username w' log,
    valid_configuration P cl w projectName username w' log.
Proof.
  split.
  - unfold valid_configuration, help_of, gopath_of.
    run_main.
    destruct (flag_Bool (flag_h cl) false) eqn:Hh;
      cbn [world trace fst snd app negb];
      [intros H; now contradiction H | ].
    destruct (positional cl) as [| projectName [| ? ?]] eqn:Ha;
      cbn [length Nat.eqb negb hd world trace fst snd app];
      try (intros H; now contradiction H).
    destruct (String.eqb (flag_String (flag_gopath cl) (os_Getenv P "GOPATH" w)) "") eqn:Hg;
      cbn [world trace fst snd app];
      [intros H; now contradiction H | ].
    apply String.eqb_neq in Hg.
    destruct (String.eqb (flag_String (flag_username cl) "") "") eqn:Hu;
      cbn [world trace fst snd app].
    + apply String.eqb_eq in Hu.
      destruct (config_LoadConfig P GlobalScope w) as [[cfg | err] w0] eqn:Hc;
        cbn [world trace fst snd app];
        [ | intros H; now contradiction H].
      destruct (String.eqb (User_Name cfg) "") eqn:Hn;
        cbn [world trace fst snd app];
        [intros H; now contradiction H | ].
      apply String.eqb_neq in Hn.
      intros _.
      exists projectName, (User_Name cfg), w0,
        [ELoadConfig GlobalScope (inl cfg)].
      repeat split; try assumption.
      now apply (username_from_config P cl w cfg w0).
    + apply String.eqb_neq in Hu.
      intros _.
      exists projectName, (flag_String (flag_username cl) ""), w, [].
      repeat split; try assumption.
      now apply (username_from_flag P cl w).
  - intros (projectName & username & w' & log & V).
    enter_valid V.
    all: repeat split_call.
    all: cbn [steps_of step_of]; discriminate.
Qed.

(** X11.  Once [flag.Parse] has returned, standard output, read as one
    stream, starts with the success report exactly when [main] returns: a
    run that leaves through [os.Exit] has a standard output that does not
    start with [Successfully created], whatever the errors and the captured
    output of [go mod init] say. *)
Theorem stdout_opens_with_success_report_exactly_when_main_returns
    (cl : CommandLine) (w : W) :
  fst (run P cl w) = Return tt <->
  String.prefix "Successfully created and set up Go project at "
    (stdout_of (trace (snd (run P cl w)))) = true.
Proof.
  run_cases.
  all: split; intros H.
  all: try discriminate H.
  all: try reflexivity.
  all: try (cbn [stdout_of]; rewrite append_assoc; apply prefix_append).
  all: lazy in H; discriminate H.
Qed.

End Properties.

(** C7, at [prog -gopath rel -username bob demo] started in [/home/ana].
    The run completes.  The project root is
    [/home/ana/rel/src/github.com/bob/demo]: that directory is created, it
    is the working directory from line 77 on, and [main.go] with the
    greeting for [demo] and the module file are put there.  But line 84
    hands [git.PlainInit] the same path, which is not rooted and is now read
    from inside the project root: the repository is initialised in
    [rel/src/github.com/bob/demo] below the project root, and there is none
    at the project root. *)
Theorem relative_base_path_puts_repository_below_project_root :
  fst (run Sim.platform Sim.relative Sim.healthy) = Return tt /\
  Sim.dirs (world (snd (run Sim.platform Sim.relative Sim.healthy)))
    = ["/home/ana/rel/src/github.com/bob/demo"] /\
  Sim.cwd (world (snd (run Sim.platform Sim.relative Sim.healthy)))
    = "/home/ana/rel/src/github.com/bob/demo" /\
  Sim.files (world (snd (run Sim.platform Sim.relative Sim.healthy)))
    = [("/home/ana/rel/src/github.com/bob/demo/main.go", mainContent "demo")] /\
  contains "Hello from demo!" (mainContent "demo") = true /\
  Sim.manifests (world (snd (run Sim.platform Sim.relative Sim.healthy)))
    = ["/home/ana/rel/src/github.com/bob/demo"] /\
  Sim.repos (world (snd (run Sim.platform Sim.relative Sim.healthy)))
    = [("/home/ana/rel/src/github.com/bob/demo/rel/src/github.com/bob/demo",
        false)] /\
  ~ In "/home/ana/rel/src/github.com/bob/demo"
       (map fst (Sim.repos (world (snd (run Sim.platform Sim.relative Sim.healthy))))).
Proof.
  assert (E : Sim.repos (world (snd (run Sim.platform Sim.relative Sim.healthy)))
              = [("/home/ana/rel/src/github.com/bob/demo/rel/src/github.com/bob/demo",
                  false)])
    by (vm_compute; reflexivity).
  repeat split; try (vm_compute; reflexivity).
  rewrite E. cbn [map fst In]. intros [H | H]; [discriminate H | exact H].
Qed.

(** With a rooted base path the repository is at the project root. *)
Lemma rooted_base_path_puts_repository_at_project_root :
  Sim.cwd (world (snd (run Sim.platform Sim.demo Sim.healthy)))
    = "/home/ana/go/src/github.com/ana/demo" /\
  Sim.repos (world (snd (run Sim.platform Sim.demo Sim.healthy)))
    = [("/home/ana/go/src/github.com/ana/demo", false)].
Proof.
  split; vm_compute; reflexivity.
Qed.

(** C5 on [prog -h], on a machine where everything would work. *)
Lemma help_prints_usage_and_touches_nothing_witness :
  exit_status (fst (run Sim.platform Sim.help Sim.healthy)) = 0%Z /\
  stderr_of (trace (snd (run Sim.platform Sim.help Sim.healthy)))
    = usage_text Sim.platform "go-project-init" "/home/ana/go" /\
  operations (trace (snd (run Sim.platform Sim.help Sim.healthy))) = [] /\
  world (snd (run Sim.platform Sim.help Sim.healthy)) = Sim.healthy.
Proof.
  apply (help_prints_usage_and_touches_nothing Sim.platform Sim.help Sim.healthy).
  reflexivity.
Defined.

(** C4 as stated fails on [prog -h]: no positional argument, status 0. *)
Lemma wrong_argument_count_counterexample :
  ~ (length (positional Sim.help) <> 1 ->
     exit_status (fst (run Sim.platform Sim.help Sim.healthy)) = 1%Z).
Proof.
  intros H.
  assert (Hn : length (positional Sim.help) <> 1) by (cbn; discriminate).
  specialize (H Hn). vm_compute in H. discriminate.
Qed.

(** C4, amended, on [prog one two]. *)
Lemma wrong_argument_count_is_usage_error_witness :
  fst (run Sim.platform Sim.two_args Sim.healthy) = Exit 1 /\
  stderr_of (trace (snd (run Sim.platform Sim.two_args Sim.healthy)))
    = usage_text Sim.platform "go-project-init" "/home/ana/go" /\
  stdout_of (trace (snd (run Sim.platform Sim.two_args Sim.healthy)))
    = "Error: Project name is required as an argument." ++ nl /\
  operations (trace (snd (run Sim.platform Sim.two_args Sim.healthy))) = [].
Proof.
  apply (wrong_argument_count_is_usage_error Sim.platform Sim.two_args Sim.healthy).
  - reflexivity.
  - cbn. discriminate.
Defined.

(** C3 as stated fails on [prog -h] with [GOPATH] unset: the base path is
    empty and the status is 0. *)
Lemma empty_gopath_counterexample :
  ~ (gopath_of Sim.platform Sim.help Sim.no_gopath = "" ->
     exit_status (fst (run Sim.platform Sim.help Sim.no_gopath)) = 1%Z).
Proof.
  intros H. specialize (H eq_refl). vm_compute in H. discriminate.
Qed.

(** C3, amended, on [prog demo] with [GOPATH] unset. *)
Lemma empty_gopath_exits_1_untouched_witness :
  exit_status (fst (run Sim.platform Sim.demo Sim.no_gopath)) = 1%Z /\
  operations (trace (snd (run Sim.platform Sim.demo Sim.no_gopath))) = [] /\
  world (snd (run Sim.platform Sim.demo Sim.no_gopath)) = Sim.no_gopath /\
  (length (positional Sim.demo) = 1 ->
   stdout_of (trace (snd (run Sim.platform Sim.demo Sim.no_gopath)))
     = "Error: GOPATH is not set. Please set GOPATH environment variable or provide it using the -gopath flag." ++ nl).
Proof.
  apply (empty_gopath_exits_1_untouched Sim.platform Sim.demo Sim.no_gopath).
  - reflexivity.
  - reflexivity.
Defined.

(** C1 on [prog demo], everything working: the path is
    [/home/ana/go/src/github.com/ana/demo]. *)
Lemma project_path_is_join_witness :
  (exists r,
     In (EMkdirAll "/home/ana/go/src/github.com/ana/demo" 493 r)
        (trace (snd (run Sim.platform Sim.demo Sim.healthy)))) /\
  (forall p,
     In p (paths_used (trace (snd (run Sim.platform Sim.demo Sim.healthy)))) ->
     p = "/home/ana/go/src/github.com/ana/demo") /\
  (fst (run Sim.platform Sim.demo Sim.healthy) = Return tt ->
   In (EStdout ("Successfully created and set up Go project at "
                ++ "/home/ana/go/src/github.com/ana/demo" ++ nl))
      (trace (snd (run Sim.platform Sim.demo Sim.healthy)))).
Proof.
  apply (project_path_is_join Sim.platform Sim.demo Sim.healthy
           "demo" "ana" Sim.healthy
           [ELoadConfig GlobalScope (inl {| User_Name := "ana" |})]).
  repeat split.
  - discriminate.
  - apply (username_from_config Sim.platform Sim.demo Sim.healthy
             {| User_Name := "ana" |} Sim.healthy).
    + reflexivity.
    + reflexivity.
    + discriminate.
Defined.

(** C2 on [prog demo] where [go mod init] exits with status 1: the run
    exits 1, the directory and the repository are still there. *)
Lemma module_init_failure_exits_1_without_rollback_witness :
  exists s,
    run Sim.platform Sim.demo Sim.gomod_fails = (Exit 1, s) /\
    stdout_of (trace s)
      = "Error initializing Go module: exit status 1" ++ nl
        ++ "go: cannot determine module path for source directory" ++ nl ++ nl /\
    Sim.dirs (world s) = ["/home/ana/go/src/github.com/ana/demo"] /\
    Sim.repos (world s) = [("/home/ana/go/src/github.com/ana/demo", false)].
Proof.
  eexists. split.
  - eapply (module_init_failure_exits_1_without_rollback Sim.platform
              Sim.demo Sim.gomod_fails "demo" "ana" Sim.gomod_fails
              [ELoadConfig GlobalScope (inl {| User_Name := "ana" |})]).
    + repeat split.
      * discriminate.
      * apply (username_from_config Sim.platform Sim.demo Sim.gomod_fails
                 {| User_Name := "ana" |} Sim.gomod_fails).
        -- reflexivity.
        -- reflexivity.
        -- discriminate.
    + reflexivity.
    + reflexivity.
    + reflexivity.
    + reflexivity.
  - repeat split; reflexivity.
Defined.

(** C6 as stated fails on [prog -h] where the global git configuration
    cannot be read: no [-username], no identity, and the status is 0. *)
Lemma username_comes_from_global_git_config_counterexample :
  ~ (flag_username Sim.help = None ->
     (exit_status (fst (run Sim.platform Sim.help Sim.no_gitconfig)) = 1%Z
      <-> no_identity Sim.platform Sim.no_gitconfig)).
Proof.
  intros H. specialize (H eq_refl).
  destruct H as [_ H]. specialize (H I).
  vm_compute in H. discriminate.
Qed.

(** C6, amended, on [prog demo]: once with a configuration that cannot be
    read, once with one that names the user. *)
Lemma username_comes_from_global_git_config_witness :
  (fst (run Sim.platform Sim.demo Sim.no_gitconfig) = Exit 1 /\
   steps_of (trace (snd (run Sim.platform Sim.demo Sim.no_gitconfig))) = []) /\
  (exists r,
     nth_error (trace (snd (run Sim.platform Sim.demo Sim.healthy))) 1
     = Some (EMkdirAll "/home/ana/go/src/github.com/ana/demo" 493 r)).
Proof.
  split.
  - destruct (username_comes_from_global_git_config Sim.platform Sim.demo
                Sim.no_gitconfig "demo" eq_refl eq_refl) as [_ [Hiff _]].
    + discriminate.
    + reflexivity.
    + apply Hiff. exact I.
  - destruct (username_comes_from_global_git_config Sim.platform Sim.demo
                Sim.healthy "demo" eq_refl eq_refl) as [_ [_ [_ [_ Hok]]]].
    + discriminate.
    + reflexivity.
    + destruct (Hok {| User_Name := "ana" |} eq_refl) as [Hex _].
      * discriminate.
      * exact Hex.
Defined.

(** The same on [prog demo], everything working. *)
Lemma successful_demo_run_witness :
  exists username output,
    let projectPath :=
      filepath_Join Sim.platform
        [gopath_of Sim.platform Sim.demo Sim.healthy; "src";
         provider_of Sim.demo; username; "demo"] in
    step_events (trace (snd (run Sim.platform Sim.demo Sim.healthy))) =
      [ EMkdirAll projectPath 493 None;
        EChdir projectPath None;
        EPlainInit projectPath false None;
        ECombinedOutput ["go"; "mod"; "init"] output None;
        EWriteFile "main.go" (mainContent "demo") 420 None ] /\
    contains (greeting "demo") (mainContent "demo") = true /\
    contains "Hello from demo!" (mainContent "demo") = true.
Proof.
  apply (successful_demo_run_writes_greeting_and_initialises_repository
           Sim.platform Sim.demo Sim.healthy).
  - reflexivity.
  - vm_compute. reflexivity.
Defined.

(** C10 as stated fails on [prog -h -gopath "" demo]: the status is 0. *)
Lemma empty_flag_value_counterexample :
  ~ (flag_gopath Sim.help_empty_gopath = Some "" ->
     exit_status (fst (run Sim.platform Sim.help_empty_gopath Sim.healthy)) = 1%Z).
Proof.
  intros H. specialize (H eq_refl). vm_compute in H. discriminate.
Qed.

(** C10, amended, on [prog -gopath "" demo] and [prog -username "" demo],
    with [GOPATH] set to [/home/ana/go]. *)
Lemma empty_flag_value_counts_as_unset_witness :
  os_Getenv Sim.platform "GOPATH" Sim.healthy = "/home/ana/go" /\
  exit_status (fst (run Sim.platform Sim.empty_gopath Sim.healthy)) = 1%Z /\
  run Sim.platform Sim.empty_username Sim.healthy
    = run Sim.platform Sim.demo Sim.healthy.
Proof.
  destruct (empty_flag_value_counts_as_unset Sim.platform Sim.demo Sim.healthy
              "demo" eq_refl eq_refl) as [Hg [Hu _]].
  split; [reflexivity | split].
  - change Sim.empty_gopath with (with_gopath Sim.demo (Some "")).
    rewrite Hg. reflexivity.
  - exact Hu.
Defined.

(** X2 on [prog demo] where the directory cannot be created: nothing is
    made. *)
Lemma mkdir_failure_stops_the_run_witness :
  exists s,
    run Sim.platform Sim.demo
      (Sim.failing (Some "mkdir /home/ana/go: permission denied") None None None)
      = (Exit 1, s) /\
    stdout_of (trace s)
      = "Error creating project directory: mkdir /home/ana/go: permission denied" ++ nl /\
    Sim.dirs (world s) = [] /\
    Sim.cwd (world s) = "/home/ana".
Proof.
  eexists. split.
  - eapply (mkdir_failure_stops_the_run Sim.platform Sim.demo _ "demo" "ana" _
              [ELoadConfig GlobalScope (inl {| User_Name := "ana" |})]).
    + repeat split.
      * discriminate.
      * apply (username_from_config Sim.platform Sim.demo _
                 {| User_Name := "ana" |} _).
        -- reflexivity.
        -- reflexivity.
        -- discriminate.
    + cbv; reflexivity.
  - repeat split; vm_compute; reflexivity.
Defined.

(** X3 on [prog demo] where the directory cannot be entered: the directory
    stays, the working directory is the old one. *)
Lemma chdir_failure_stops_the_run_witness :
  exists s,
    run Sim.platform Sim.demo
      (Sim.failing None (Some "chdir: permission denied") None None)
      = (Exit 1, s) /\
    stdout_of (trace s)
      = "Error changing to project directory: chdir: permission denied" ++ nl /\
    Sim.dirs (world s) = ["/home/ana/go/src/github.com/ana/demo"] /\
    Sim.cwd (world s) = "/home/ana" /\
    Sim.repos (world s) = [].
Proof.
  eexists. split.
  - eapply (chdir_failure_stops_the_run Sim.platform Sim.demo _ "demo" "ana" _
              [ELoadConfig GlobalScope (inl {| User_Name := "ana" |})]).
    + repeat split.
      * discriminate.
      * apply (username_from_config Sim.platform Sim.demo _
                 {| User_Name := "ana" |} _).
        -- reflexivity.
        -- reflexivity.
        -- discriminate.
    + cbv; reflexivity.
    + cbv; reflexivity.
  - repeat split; vm_compute; reflexivity.
Defined.

(** X4 on [prog demo] where the repository cannot be initialised. *)
Lemma plain_init_failure_stops_the_run_witness :
  exists s,
    run Sim.platform Sim.demo
      (Sim.failing None None (Some "repository already exists") None)
      = (Exit 1, s) /\
    stdout_of (trace s)
      = "Error initializing Git repository: repository already exists" ++ nl /\
    Sim.cwd (world s) = "/home/ana/go/src/github.com/ana/demo" /\
    Sim.manifests (world s) = [] /\
    Sim.files (world s) = [].
Proof.
  eexists. split.
  - eapply (plain_init_failure_stops_the_run Sim.platform Sim.demo _ "demo" "ana" _
              [ELoadConfig GlobalScope (inl {| User_Name := "ana" |})]).
    + repeat split.
      * discriminate.
      * apply (username_from_config Sim.platform Sim.demo _
                 {| User_Name := "ana" |} _).
        -- reflexivity.
        -- reflexivity.
        -- discriminate.
    + cbv; reflexivity.
    + cbv; reflexivity.
    + cbv; reflexivity.
  - repeat split; vm_compute; reflexivity.
Defined.

(** X5 on [prog demo] where [main.go] cannot be written: the repository and
    the module file are there, [main.go] is not. *)
Lemma write_failure_stops_the_run_witness :
  exists s,
    run Sim.platform Sim.demo
      (Sim.failing None None None (Some "open main.go: disk quota exceeded"))
      = (Exit 1, s) /\
    stdout_of (trace s)
      = "Error creating main.go file: open main.go: disk quota exceeded" ++ nl /\
    Sim.repos (world s) = [("/home/ana/go/src/github.com/ana/demo", false)] /\
    Sim.manifests (world s) = ["/home/ana/go/src/github.com/ana/demo"] /\
    Sim.files (world s) = [].
Proof.
  eexists. split.
  - eapply (write_failure_stops_the_run Sim.platform Sim.demo _ "demo" "ana" _
              [ELoadConfig GlobalScope (inl {| User_Name := "ana" |})]).
    + repeat split.
      * discriminate.
      * apply (username_from_config Sim.platform Sim.demo _
                 {| User_Name := "ana" |} _).
        -- reflexivity.
        -- reflexivity.
        -- discriminate.
    + cbv; reflexivity.
    + cbv; reflexivity.
    + cbv; reflexivity.
    + cbv; reflexivity.
    + cbv; reflexivity.
  - repeat split; vm_compute; reflexivity.
Defined.

(** X6 on [prog demo], everything working: [main.go] is in the project
    directory. *)
Lemma all_steps_succeeding_completes_the_run_witness :
  exists s,
    run Sim.platform Sim.demo Sim.healthy = (Return tt, s) /\
    stdout_of (trace s)
      = "Successfully created and set up Go project at /home/ana/go/src/github.com/ana/demo"
        ++ nl ++ "Created: Git repository, Go module, and main.go file" ++ nl /\
    Sim.files (world s)
      = [("/home/ana/go/src/github.com/ana/demo/main.go", mainContent "demo")].
Proof.
  eexists. split.
  - eapply (all_steps_succeeding_completes_the_run Sim.platform Sim.demo _
              "demo" "ana" _
              [ELoadConfig GlobalScope (inl {| User_Name := "ana" |})]).
    + repeat split.
      * discriminate.
      * apply (username_from_config Sim.platform Sim.demo _
                 {| User_Name := "ana" |} _).
        -- reflexivity.
        -- reflexivity.
        -- discriminate.
    + cbv; reflexivity.
    + cbv; reflexivity.
    + cbv; reflexivity.
    + cbv; reflexivity.
    + cbv; reflexivity.
  - repeat split; vm_compute; reflexivity.
Defined.

(** X9 on [prog -username bob demo] where the global git configuration
    cannot be read: the run never asks for it. *)
Lemma supplied_username_skips_git_config_witness :
  username_flag_of Sim.as_bob <> "" /\
  ~ In (ELoadConfig GlobalScope (Sim.gitconfig Sim.no_gitconfig))
       (trace (snd (run Sim.platform Sim.as_bob Sim.no_gitconfig))).
Proof.
  split.
  - discriminate.
  - apply (supplied_username_skips_git_config Sim.platform Sim.as_bob
             Sim.no_gitconfig).
    discriminate.
Defined.

(** X12 on [prog one two]. *)
Lemma failure_is_announced_on_stdout_witness :
  String.prefix "Error"
    (stdout_of (trace (snd (run Sim.platform Sim.two_args Sim.healthy)))) = true.
Proof.
  apply (failure_is_announced_on_stdout Sim.platform Sim.two_args Sim.healthy).
  reflexivity.
Defined.

(** X14 on [prog demo], everything working: the configuration is valid and
    steps are attempted. *)
Lemma steps_happen_exactly_on_valid_configurations_witness :
  valid_configuration Sim.platform Sim.demo Sim.healthy "demo" "ana"
    Sim.healthy [ELoadConfig GlobalScope (inl {| User_Name := "ana" |})] /\
  steps_of (trace (snd (run Sim.platform Sim.demo Sim.healthy))) <> [].
Proof.
  assert (V : valid_configuration Sim.platform Sim.demo Sim.healthy "demo" "ana"
                Sim.healthy
                [ELoadConfig GlobalScope (inl {| User_Name := "ana" |})]).
  { repeat split.
    - discriminate.
    - apply (username_from_config Sim.platform Sim.demo _
               {| User_Name := "ana" |} _).
      + reflexivity.
      + reflexivity.
      + discriminate. }
  split.
  - exact V.
  - apply (steps_happen_exactly_on_valid_configurations Sim.platform Sim.demo
             Sim.healthy).
    exists "demo", "ana", Sim.healthy,
      [ELoadConfig GlobalScope (inl {| User_Name := "ana" |})].
    exact V.
Defined.
